(** * Askdemia backend: intent routing, dispatch and the conversation log

    A shallow embedding of [backend.py]: the check of the API key when the
    module loads, the keyword chain of [chat] that picks an agent and builds
    its task, the call into the reasoning backend, and the three operations
    on the [message] collection ([insert_many] in [chat], [find] in
    [get_chat_history], [delete_many] in [delete_chat_history]), alone and
    over runs of calls. *)

From Stdlib Require Import String Ascii List Bool Arith Lia.
Import ListNotations.
Local Open Scope string_scope.
Local Open Scope list_scope.

Set Implicit Arguments.

(** ** Python strings *)

(** A [str] is a Rocq [string]. [sub in s] on two strings is the substring
    test. *)
Fixpoint str_in (sub s : string) : bool :=
  String.prefix sub s ||
  match s with
  | EmptyString => false
  | String _ s' => str_in sub s'
  end.

(** [any(keyword in user_input for keyword in keywords)] *)
Definition any_keyword_in (keywords : list string) (user_input : string) : bool :=
  existsb (fun keyword => str_in keyword user_input) keywords.

(** [str.lower] on the letters A to Z; every other character is kept.
    Python's own [lower] also folds cased letters outside ASCII, so this
    function agrees with it on ASCII text. The development below takes the
    case folding as a parameter and uses [lower_ascii] for concrete runs. *)
Definition lower_char (c : ascii) : ascii :=
  let n := nat_of_ascii c in
  if ((65 <=? n) && (n <=? 90))%nat then ascii_of_nat (n + 32) else c.

Fixpoint lower_ascii (s : string) : string :=
  match s with
  | EmptyString => EmptyString
  | String c s' => String (lower_char c) (lower_ascii s')
  end.

(** ** Agents, tasks and crews (the CrewAI objects the module builds) *)

Record LLM := {
  llm_model : string;
  llm_api_key : string;
  llm_verbose : bool
}.

(** [memory] and [verbose] are keyword arguments that some agents leave to
    the library default: [None] stands for an argument that is not passed. *)
Record Agent := {
  name : string;
  role : string;
  goal : string;
  backstory : string;
  agent_llm : LLM;
  memory : option bool;
  verbose : option bool
}.

Record Task := {
  description : string;
  agent : Agent;
  expected_output : string
}.

Record Crew := {
  agents : list Agent;
  tasks : list Task
}.

Record CrewOutput := { raw : string }.

Record ChatRequest := {
  user_id : string;
  message : string
}.

(** ** Results of calls that may raise *)

(** A call either returns a value or raises an exception [e] that
    [except Exception as e] catches; only [str(e)] is ever used by the
    module. *)
Inductive outcome (A : Type) : Type :=
| Returns (a : A)
| Raises (str_e : string).
Arguments Returns {A} a.
Arguments Raises {A} str_e.

(** What an endpoint hands back to FastAPI: a body, or
    [HTTPException(status_code, detail)]. *)
Inductive http (A : Type) : Type :=
| Body (a : A)
| HTTPException (status_code : nat) (detail : string).
Arguments Body {A} a.
Arguments HTTPException {A} status_code detail.

(** ** BSON documents and the [message] collection *)

(** The values the module stores and reads: strings, and the ObjectIds the
    driver adds. Arrays, numbers and embedded documents, which BSON also
    has, are not modelled; no endpoint writes one. *)
Inductive Value : Type :=
| VStr (s : string)
| VObjectId (n : nat).

Definition Value_eqb (v w : Value) : bool :=
  match v, w with
  | VStr s, VStr t => String.eqb s t
  | VObjectId n, VObjectId m => Nat.eqb n m
  | _, _ => false
  end.

(** A document is an ordered list of fields. *)
Definition Document := list (string * Value).

Fixpoint field (k : string) (d : Document) : option Value :=
  match d with
  | [] => None
  | (k', v) :: d' => if String.eqb k k' then Some v else field k d'
  end.

Definition keys (d : Document) : list string := map fst d.

(** A query document such as [{"user_id": user_id}] selects the documents
    that carry each of its fields with an equal value. *)
Definition matches (query d : Document) : bool :=
  forallb (fun kv => match field (fst kv) d with
                     | Some v => Value_eqb v (snd kv)
                     | None => false
                     end) query.

(** An exclusion projection such as [{"_id": 0}] drops the listed fields and
    keeps the others in place. *)
Definition project_out (excluded : list string) (d : Document) : Document :=
  filter (fun kv => negb (existsb (String.eqb (fst kv)) excluded)) d.

(** The collection: its documents in natural order, and the supply of
    ObjectIds for documents inserted without an [_id]. *)
Record Collection := {
  documents : list Document;
  next_oid : nat
}.

Definition empty_collection : Collection :=
  {| documents := []; next_oid := 0 |}.

Fixpoint with_ids (n : nat) (docs : list Document) : list Document :=
  match docs with
  | [] => []
  | d :: ds => (("_id", VObjectId n) :: d) :: with_ids (S n) ds
  end.

(** The store is an external service and any call to it may raise. A fault
    of [insert_many] (ordered, as by default) names how many documents of
    the batch were written before the error. *)
Definition insert_many (fault : option (nat * string)) (docs : list Document)
    (c : Collection) : outcome unit * Collection :=
  match fault with
  | None =>
      (Returns tt,
       {| documents := documents c ++ with_ids (next_oid c) docs;
          next_oid := next_oid c + length docs |})
  | Some (written, str_e) =>
      (Raises str_e,
       {| documents := documents c ++ firstn written (with_ids (next_oid c) docs);
          next_oid := next_oid c + length docs |})
  end.

Definition find (fault : option string) (query : Document) (excluded : list string)
    (c : Collection) : outcome (list Document) :=
  match fault with
  | None => Returns (map (project_out excluded) (filter (matches query) (documents c)))
  | Some str_e => Raises str_e
  end.

Record DeleteResult := { deleted_count : nat }.

(** [delete_many] is no transaction: a fault names, by [gone], the matching
    documents that were already deleted when the error came. *)
Definition delete_many (fault : option ((Document -> bool) * string)) (query : Document)
    (c : Collection) : outcome DeleteResult * Collection :=
  match fault with
  | None =>
      (Returns {| deleted_count := length (filter (matches query) (documents c)) |},
       {| documents := filter (fun d => negb (matches query d)) (documents c);
          next_oid := next_oid c |})
  | Some (gone, str_e) =>
      (Raises str_e,
       {| documents := filter (fun d => negb (matches query d && gone d)) (documents c);
          next_oid := next_oid c |})
  end.

(** ** Module start-up *)

Record Settings := {
  settings_api_key : string;
  settings_MONGO_URI : option string
}.

(** The import of the module from its first line to the creation of the
    store client. [getenv] is [os.getenv] once [load_dotenv()] has run;
    [not api_key] holds for [None] and for the empty string, and then the
    import stops with a [ValueError]. [MongoClient] is the constructor of
    the driver, which may raise on the URI it is given; the calls between
    the two ([FastAPI], [add_middleware]) take constants only. *)
Definition load_settings (getenv : string -> option string)
    (MongoClient : option string -> outcome unit) : outcome Settings :=
  let api_key := getenv "GEMINI_API_KEY" in
  let MONGO_URI := getenv "MONGODB_URI" in
  match api_key with
  | None => Raises "Error: GEMINI_API_KEY is missing from the .env file."
  | Some "" => Raises "Error: GEMINI_API_KEY is missing from the .env file."
  | Some key =>
      match MongoClient MONGO_URI with
      | Returns _ =>
          Returns {| settings_api_key := key; settings_MONGO_URI := MONGO_URI |}
      | Raises str_e => Raises str_e
      end
  end.

(** ** The module *)

Section Backend.

(** [str.lower], a built-in of Python, and the value of [GEMINI_API_KEY]. *)
Variable lower : string -> string.
Variable api_key : string.

Definition llm : LLM :=
  {| llm_model := "gemini/gemini-1.5-flash"; llm_api_key := api_key; llm_verbose := true |}.

Definition chatbot_agent : Agent :=
  {| name := "Study Assistant";
     role := "Conversational AI";
     goal := "Assist students with study planning, scheduling, and stress management.";
     backstory := "Once a virtual assistant designed for productivity hacks, the Study Assistant evolved into a deeply empathetic and organized AI, tailored to support students in creating effective study routines. With experience in balancing workload, time management, and well-being, this assistant is your go-to guide for achieving academic success with a clear plan.";
     agent_llm := llm;
     memory := Some true;
     verbose := Some true |}.

Definition task_manager : Agent :=
  {| name := "Task Manager";
     role := "Task & Assignment Tracker";
     goal := "Monitor assignments, deadlines, and tasks.";
     backstory := "Built as a digital academic planner, the Task Manager is laser-focused on deadlines, due dates, and deliverables. With a sharp eye for detail and a structured mindset, it keeps students updated on assignments, ensures nothing is forgotten, and promotes timely submissions through gentle reminders and progress tracking.";
     agent_llm := llm;
     memory := None;
     verbose := None |}.

Definition stress_predictor : Agent :=
  {| name := "Stress Predictor";
     role := "Workload & Stress Analyzer";
     goal := "Analyze student workload and predict stress levels.";
     backstory := "Developed from research into student mental health, the Stress Predictor is trained to identify signs of academic burnout, overload, and imbalance. It analyzes study patterns, workload, and emotional cues to offer actionable feedback and suggestions that promote mental wellness and productivity harmony.";
     agent_llm := llm;
     memory := None;
     verbose := None |}.

Definition adaptive_scheduler : Agent :=
  {| name := "Adaptive Scheduler";
     role := "Smart Study Planner";
     goal := "Modify study plans based on workload and stress levels.";
     backstory := "Created as a dynamic planning engine, the Adaptive Scheduler learns from your performance and stress signals to update your study timetable in real time. It’s like having a personal assistant who not only plans but also adapts to your needs, ensuring you're always productive without being overwhelmed.";
     agent_llm := llm;
     memory := None;
     verbose := None |}.

Definition teacher_agent : Agent :=
  {| name := "Teacher Bot";
     role := "Academic Concept Explainer";
     goal := "Explain complex concepts in simple terms.";
     backstory := "Inspired by the world's best educators, Teacher Bot is a patient and knowledgeable AI tutor designed to break down complex concepts into simple, digestible explanations. Whether it’s advanced math or abstract theory, it teaches in a way that makes learning approachable and enjoyable.";
     agent_llm := llm;
     memory := None;
     verbose := Some true |}.

Definition motivator_agent : Agent :=
  {| name := "Motivator";
     role := "Positive Reinforcement Bot";
     goal := "Encourage and motivate students with uplifting responses.";
     backstory := "Cheerful, energetic, and always optimistic, the Motivator was created to lift spirits and restore focus during tough study days. Drawing from psychology and positive reinforcement techniques, it delivers encouragement, affirmations, and pep talks to keep students moving forward with confidence.";
     agent_llm := llm;
     memory := None;
     verbose := Some true |}.

(** The agents the module defines, in the order of their definitions. *)
Definition defined_agents : list Agent :=
  [chatbot_agent; task_manager; stress_predictor; adaptive_scheduler;
   teacher_agent; motivator_agent].

(** *** [chat], first half: the keyword chain

    The [if]/[elif] chain of [chat] binds [agent], [description] and
    [expected_output]; [chat_route] returns the three. *)
Definition chat_route (request : ChatRequest) : Agent * string * string :=
  let user_input := lower (message request) in
  if any_keyword_in ["schedule"; "plan"; "study plan"] user_input then
    (chatbot_agent,
     ("Create a study schedule based on this request: " ++ message request)%string,
     "A well-structured study plan.")
  else if any_keyword_in ["assignment"; "deadline"; "due"; "task"] user_input then
    (task_manager,
     ("Check for pending assignments based on this request: " ++ message request)%string,
     "A list of pending assignments.")
  else if any_keyword_in ["stress"; "overwork"; "burnout"; "overwhelm"] user_input then
    (stress_predictor,
     ("Analyze workload and predict stress levels based on this request: " ++ message request)%string,
     "A stress level assessment.")
  else if any_keyword_in ["explain"; "concept"; "definition"; "theory"; "understand"] user_input then
    (teacher_agent,
     ("Explain this academic concept: " ++ message request)%string,
     "A clear and concise explanation of the topic.")
  else if any_keyword_in ["motivate"; "encourage"; "feeling low"; "positive"; "inspire"] user_input then
    (motivator_agent,
     ("Give an uplifting and positive message for this request: " ++ message request)%string,
     "A motivating and cheerful response.")
  else
    (chatbot_agent,
     ("Respond to this student query: " ++ message request)%string,
     "A helpful response.").

(** [Task(description=description, agent=agent, expected_output=expected_output)] *)
Definition current_task (request : ChatRequest) : Task :=
  let '(agent, description, expected_output) := chat_route request in
  {| description := description; agent := agent; expected_output := expected_output |}.

(** [Crew(agents=[agent], tasks=[current_task])] *)
Definition crew (request : ChatRequest) : Crew :=
  {| agents := [agent (current_task request)]; tasks := [current_task request] |}.

(** *** [chat], second half: dispatch and persistence *)

Record ChatResponse := { response : string }.

Definition message_document (user_id role text : string) : Document :=
  [("user_id", VStr user_id); ("role", VStr role); ("text", VStr text)].

(** [kickoff_async] is what the reasoning backend does with the crew of this
    request, [store_fault] what the store does with the insertion. The
    [try] block covers both calls; any exception becomes
    [HTTPException(500, str(e))]. *)
Definition chat (kickoff_async : Crew -> outcome CrewOutput)
    (store_fault : option (nat * string))
    (request : ChatRequest) (c : Collection) : http ChatResponse * Collection :=
  match kickoff_async (crew request) with
  | Raises str_e => (HTTPException 500 str_e, c)
  | Returns response =>
      let bot_response := raw response in
      match insert_many store_fault
              [message_document (user_id request) "user" (message request);
               message_document (user_id request) "bot" bot_response] c with
      | (Raises str_e, c') => (HTTPException 500 str_e, c')
      | (Returns _, c') => (Body {| response := bot_response |}, c')
      end
  end.

(** *** [get_chat_history] and [delete_chat_history] *)

Record ChatHistoryBody := {
  history_user_id : string;
  messages : list Document
}.

Definition get_chat_history (store_fault : option string) (user_id : string)
    (c : Collection) : http ChatHistoryBody :=
  match find store_fault [("user_id", VStr user_id)] ["_id"] c with
  | Returns messages => Body {| history_user_id := user_id; messages := messages |}
  | Raises str_e => HTTPException 500 str_e
  end.

Record DeleteBody := {
  delete_message : string;
  delete_deleted_count : nat
}.

Definition delete_chat_history (store_fault : option ((Document -> bool) * string))
    (user_id : string) (c : Collection) : http DeleteBody * Collection :=
  match delete_many store_fault [("user_id", VStr user_id)] c with
  | (Returns result, c') =>
      (Body {| delete_message := "Chat history deleted successfully.";
               delete_deleted_count := deleted_count result |}, c')
  | (Raises str_e, c') => (HTTPException 500 str_e, c')
  end.

(** The specification's [history(user_id)]: the [messages] that
    [get_chat_history] returns when the store answers. *)
Definition history (user_id : string) (c : Collection) : list Document :=
  match get_chat_history None user_id c with
  | Body b => messages b
  | HTTPException _ _ => []
  end.

(** ** Sample data for concrete runs *)

(** Backends that treat every crew the same way. *)
Definition answers (text : string) : Crew -> outcome CrewOutput :=
  fun _ => Returns {| raw := text |}.

Definition fails (str_e : string) : Crew -> outcome CrewOutput :=
  fun _ => Raises str_e.

(** A collection after one exchange of user [u2]. *)
Definition one_exchange : Collection :=
  {| documents :=
       [[("_id", VObjectId 0); ("user_id", VStr "u2"); ("role", VStr "user");
         ("text", VStr "Explain photosynthesis")];
        [("_id", VObjectId 1); ("user_id", VStr "u2"); ("role", VStr "bot");
         ("text", VStr "Photosynthesis turns light into sugar.")]];
     next_oid := 2 |}.

(** ** The routing contract of the specification

    The specification describes the chain as an ordered table of intent
    categories, each with a keyword set, a handler, an instruction template
    and an expected-output descriptor, followed by a fallback. These
    definitions follow that description; the theorems compare them with
    [chat_route]. *)

Inductive Intent : Type :=
| StudyPlan
| AssignmentDeadline
| StressBurnout
| ConceptExplain
| MotivateEncourage.

Definition priority_order : list Intent :=
  [StudyPlan; AssignmentDeadline; StressBurnout; ConceptExplain; MotivateEncourage].

Definition rank (i : Intent) : nat :=
  match i with
  | StudyPlan => 0
  | AssignmentDeadline => 1
  | StressBurnout => 2
  | ConceptExplain => 3
  | MotivateEncourage => 4
  end.

Definition keywords (i : Intent) : list string :=
  match i with
  | StudyPlan => ["schedule"; "plan"; "study plan"]
  | AssignmentDeadline => ["assignment"; "deadline"; "due"; "task"]
  | StressBurnout => ["stress"; "overwork"; "burnout"; "overwhelm"]
  | ConceptExplain => ["explain"; "concept"; "definition"; "theory"; "understand"]
  | MotivateEncourage => ["motivate"; "encourage"; "feeling low"; "positive"; "inspire"]
  end.

(** [sub] appears as a substring of [s]. *)
Definition substring_of (sub s : string) : Prop :=
  exists pre post, s = (pre ++ sub ++ post)%string.

(** A category matches a text when one of its keywords is a substring. *)
Definition category_matches (i : Intent) (text : string) : Prop :=
  exists keyword, In keyword (keywords i) /\ substring_of keyword text.

(** The first category of the priority order that matches, if any; [None]
    is the defined outcome for a text that matches no category. *)
Definition classify (text : string) : option Intent :=
  List.find (fun i => any_keyword_in (keywords i) text) priority_order.

(** The six routing outcomes: one per category, and the fallback. *)
Definition handler (o : option Intent) : Agent :=
  match o with
  | Some StudyPlan => chatbot_agent
  | Some AssignmentDeadline => task_manager
  | Some StressBurnout => stress_predictor
  | Some ConceptExplain => teacher_agent
  | Some MotivateEncourage => motivator_agent
  | None => chatbot_agent
  end.

Definition template (o : option Intent) : string :=
  match o with
  | Some StudyPlan => "Create a study schedule based on this request: "
  | Some AssignmentDeadline => "Check for pending assignments based on this request: "
  | Some StressBurnout => "Analyze workload and predict stress levels based on this request: "
  | Some ConceptExplain => "Explain this academic concept: "
  | Some MotivateEncourage => "Give an uplifting and positive message for this request: "
  | None => "Respond to this student query: "
  end.

Definition expected_descriptor (o : option Intent) : string :=
  match o with
  | Some StudyPlan => "A well-structured study plan."
  | Some AssignmentDeadline => "A list of pending assignments."
  | Some StressBurnout => "A stress level assessment."
  | Some ConceptExplain => "A clear and concise explanation of the topic."
  | Some MotivateEncourage => "A motivating and cheerful response."
  | None => "A helpful response."
  end.

Definition work_item (o : option Intent) (message : string) : Task :=
  {| description := (template o ++ message)%string;
     agent := handler o;
     expected_output := expected_descriptor o |}.

(** The documents that [chat] writes: a message document under the [_id]
    the store gave it. *)
Definition stored_message (d : Document) : Prop :=
  exists n user_id role text,
    (role = "user" \/ role = "bot") /\
    d = ("_id", VObjectId n) :: message_document user_id role text.

Definition written_by_chat (c : Collection) : Prop :=
  Forall stored_message (documents c).

(** ** The service over a run of calls *)

(** One call to an endpoint that reaches the collection, with what the
    backend and the store do during that call. *)
Inductive Call : Type :=
| PostChat (kickoff_async : Crew -> outcome CrewOutput)
    (store_fault : option (nat * string)) (request : ChatRequest)
| GetChatHistory (store_fault : option string) (user_id : string)
| DeleteChatHistory (store_fault : option ((Document -> bool) * string))
    (user_id : string).

(** The collection after one call, and after a run of calls served one
    after the other. *)
Definition serve (call : Call) (c : Collection) : Collection :=
  match call with
  | PostChat kickoff_async store_fault request =>
      snd (chat kickoff_async store_fault request c)
  | GetChatHistory _ _ => c
  | DeleteChatHistory store_fault user_id =>
      snd (delete_chat_history store_fault user_id c)
  end.

Definition serve_all (calls : list Call) (c : Collection) : Collection :=
  fold_left (fun c call => serve call c) calls c.

(** A history made of whole exchanges: a user message, then the bot
    message that answers it, and so on. *)
Inductive exchanges (u : string) : list Document -> Prop :=
| exchanges_nil : exchanges u []
| exchanges_snoc (h : list Document) (text bot_response : string) :
    exchanges u h ->
    exchanges u (h ++ [[("user_id", VStr u); ("role", VStr "user"); ("text", VStr text)];
                       [("user_id", VStr u); ("role", VStr "bot");
                        ("text", VStr bot_response)]]).

(** A call during which the store does not stop halfway: an insertion
    that fails does not fail after the first of the two documents, and a
    deletion that fails has deleted either nothing or everything it was
    asked to. *)
Definition whole_batch (call : Call) : Prop :=
  match call with
  | PostChat _ (Some (written, _)) _ => written <> 1
  | DeleteChatHistory (Some (gone, _)) _ =>
      (forall d, gone d = false) \/ (forall d, gone d = true)
  | _ => True
  end.

(** * Properties *)

(** ** Substrings *)

Lemma prefix_true_iff (p s : string) :
  String.prefix p s = true <-> exists r, s = (p ++ r)%string.
Proof.
  revert p; induction s as [|b s IH]; intros [|a p]; simpl.
  - split; [exists ""; reflexivity | reflexivity].
  - split; [discriminate | intros [r Hr]; discriminate].
  - split; [exists (String b s); reflexivity | reflexivity].
  - destruct (ascii_dec a b) as [->|Hab].
    + rewrite IH. split; intros [r Hr]; exists r; congruence.
    + split; [discriminate | intros [r Hr]; congruence].
Qed.

Lemma str_in_true_iff (sub s : string) :
  str_in sub s = true <-> substring_of sub s.
Proof.
  unfold substring_of. split.
  - induction s as [|a s IH]; cbn [str_in]; rewrite orb_true_iff, prefix_true_iff.
    + intros [[r Hr]|H]; [exists "", r; exact Hr | discriminate].
    + intros [[r Hr]|H]; [exists "", r; exact Hr |].
      destruct (IH H) as (pre & post & ->). exists (String a pre), post. reflexivity.
  - intros (pre & post & ->). induction pre as [|a pre IH].
    + cbn [append].
      assert (H : String.prefix sub (sub ++ post) = true)
        by (apply prefix_true_iff; exists post; reflexivity).
      revert H; generalize (sub ++ post)%string; intros s H.
      destruct s; cbn [str_in]; rewrite H; reflexivity.
    + cbn [append str_in]. rewrite IH. apply orb_true_r.
Qed.

Lemma any_keyword_in_true_iff (i : Intent) (text : string) :
  any_keyword_in (keywords i) text = true <-> category_matches i text.
Proof.
  unfold any_keyword_in, category_matches. rewrite existsb_exists.
  split; intros (kw & Hin & H); exists kw; split; trivial; apply str_in_true_iff; exact H.
Qed.

Lemma any_keyword_in_false_iff (i : Intent) (text : string) :
  any_keyword_in (keywords i) text = false <-> ~ category_matches i text.
Proof.
  rewrite <- any_keyword_in_true_iff. destruct (any_keyword_in (keywords i) text); split;
    congruence.
Qed.

(** ** The keyword chain against the routing contract *)

Ltac case_chain :=
  repeat match goal with
         | |- context [any_keyword_in ?ks ?t] =>
             let E := fresh "E" in destruct (any_keyword_in ks t) eqn:E
         end.

Lemma chat_route_classify (request : ChatRequest) :
  chat_route request =
  (handler (classify (lower (message request))),
   (template (classify (lower (message request))) ++ message request)%string,
   expected_descriptor (classify (lower (message request)))).
Proof.
  unfold chat_route, classify. cbn [List.find priority_order keywords].
  case_chain; reflexivity.
Qed.

Lemma current_task_classify (request : ChatRequest) :
  current_task request = work_item (classify (lower (message request))) (message request).
Proof.
  unfold current_task. rewrite chat_route_classify. reflexivity.
Qed.

Lemma classify_Some (text : string) (i : Intent) :
  classify text = Some i <->
  category_matches i text /\ forall j, rank j < rank i -> ~ category_matches j text.
Proof.
  assert (T := fun j => any_keyword_in_true_iff j text).
  assert (F := fun j => any_keyword_in_false_iff j text).
  unfold classify. cbn [List.find priority_order]. split.
  - destruct (any_keyword_in (keywords StudyPlan) text) eqn:E0;
    [|destruct (any_keyword_in (keywords AssignmentDeadline) text) eqn:E1;
    [|destruct (any_keyword_in (keywords StressBurnout) text) eqn:E2;
    [|destruct (any_keyword_in (keywords ConceptExplain) text) eqn:E3;
    [|destruct (any_keyword_in (keywords MotivateEncourage) text) eqn:E4]]]];
    intros H; try discriminate H; injection H as <-;
    (split; [apply T; assumption
            | intros [] Hj; cbn [rank] in Hj; try lia; apply F; assumption]).
  - intros [Hi Hlt]. apply T in Hi.
    assert (E : forall j, rank j < rank i -> any_keyword_in (keywords j) text = false)
      by (intros j Hj; apply F, Hlt, Hj).
    destruct i; cbn [rank] in E;
      repeat match goal with
             | |- context [any_keyword_in (keywords ?j) text] =>
                 first [ rewrite Hi | rewrite (E j) by (cbn [rank]; lia) ]
             end; reflexivity.
Qed.

Lemma classify_None (text : string) :
  classify text = None <-> forall i, ~ category_matches i text.
Proof.
  assert (F := fun j => any_keyword_in_false_iff j text).
  unfold classify. cbn [List.find priority_order]. split.
  - intros H i. apply F. revert H.
    destruct (any_keyword_in (keywords StudyPlan) text) eqn:E0; [discriminate|].
    destruct (any_keyword_in (keywords AssignmentDeadline) text) eqn:E1; [discriminate|].
    destruct (any_keyword_in (keywords StressBurnout) text) eqn:E2; [discriminate|].
    destruct (any_keyword_in (keywords ConceptExplain) text) eqn:E3; [discriminate|].
    destruct (any_keyword_in (keywords MotivateEncourage) text) eqn:E4; [discriminate|].
    intros _. destruct i; assumption.
  - intros H.
    rewrite (proj2 (F StudyPlan) (H _)), (proj2 (F AssignmentDeadline) (H _)),
      (proj2 (F StressBurnout) (H _)), (proj2 (F ConceptExplain) (H _)),
      (proj2 (F MotivateEncourage) (H _)).
    reflexivity.
Qed.

Lemma expected_descriptor_inj (o1 o2 : option Intent) :
  expected_descriptor o1 = expected_descriptor o2 -> o1 = o2.
Proof.
  destruct o1 as [[]|], o2 as [[]|]; cbn; intros H; try reflexivity; discriminate H.
Qed.

(** C1. The categories are tried in the order study/plan,
    assignment/deadline, stress/burnout, concept/explain,
    motivate/encourage ([rank]), and the first one with a keyword that is a
    substring of the lower-cased message decides the agent, the instruction
    and the expected output. A study/plan keyword therefore wins over every
    keyword of a later category in the same message. *)
Theorem C1_first_matching_category_wins (request : ChatRequest) (i : Intent) :
  category_matches i (lower (message request)) ->
  (forall j, rank j < rank i -> ~ category_matches j (lower (message request))) ->
  chat_route request =
    (handler (Some i), (template (Some i) ++ message request)%string,
     expected_descriptor (Some i)) /\
  current_task request = work_item (Some i) (message request).
Proof.
  intros Hi Hlt.
  assert (E : classify (lower (message request)) = Some i)
    by (apply classify_Some; split; assumption).
  rewrite chat_route_classify, current_task_classify, E. split; reflexivity.
Qed.

(** C4. Routing is a total function: every request gets exactly one of the
    six work items of the contract. When no category keyword is a substring
    of the lower-cased message, that is the fallback one; the empty text
    contains no keyword. *)
Theorem C4_unmatched_message_gets_fallback (request : ChatRequest) :
  (exists! o, current_task request = work_item o (message request)) /\
  ((forall i, ~ category_matches i (lower (message request))) ->
   chat_route request =
     (chatbot_agent, ("Respond to this student query: " ++ message request)%string,
      "A helpful response.")) /\
  (forall i, ~ category_matches i "").
Proof.
  split; [|split].
  - exists (classify (lower (message request))). split.
    + apply current_task_classify.
    + intros o Ho. rewrite current_task_classify in Ho.
      apply (f_equal expected_output) in Ho. cbn [expected_output work_item] in Ho.
      apply expected_descriptor_inj, Ho.
  - intros H. apply classify_None in H. rewrite chat_route_classify, H. reflexivity.
  - intros i. apply any_keyword_in_false_iff. destruct i; reflexivity.
Qed.

(** C8. The work item built for a request is the one of its routing
    outcome: the description is that outcome's fixed template followed by
    the message exactly as it was sent (the lower-cased text is used for
    matching only), and the expected output is that outcome's fixed
    descriptor. *)
Theorem C8_task_embeds_message_verbatim (request : ChatRequest) :
  let o := classify (lower (message request)) in
  description (current_task request) = (template o ++ message request)%string /\
  expected_output (current_task request) = expected_descriptor o /\
  agent (current_task request) = handler o /\
  tasks (crew request) = [work_item o (message request)] /\
  agents (crew request) = [handler o].
Proof.
  cbv zeta. unfold crew. cbn [tasks agents].
  rewrite current_task_classify. repeat split; reflexivity.
Qed.

(** C9. The routing and the work item depend on the message text only: two
    requests with the same message, from whichever users, get the same
    agent, description and expected output, and the same crew. *)
Theorem C9_routing_ignores_user (r1 r2 : ChatRequest) :
  message r1 = message r2 ->
  chat_route r1 = chat_route r2 /\
  current_task r1 = current_task r2 /\
  crew r1 = crew r2.
Proof.
  intros H. unfold crew, current_task, chat_route. rewrite H. repeat split; reflexivity.
Qed.


(** ** The conversation log *)

Lemma Value_eqb_eq (v w : Value) : Value_eqb v w = true <-> v = w.
Proof.
  destruct v, w; cbn; try (split; [discriminate | intros H; discriminate H]).
  - rewrite String.eqb_eq. split; congruence.
  - rewrite Nat.eqb_eq. split; congruence.
Qed.

Lemma matches_by_user (u : string) (d : Document) :
  matches [("user_id", VStr u)] d = true <-> field "user_id" d = Some (VStr u).
Proof.
  unfold matches. cbn [forallb fst snd]. rewrite andb_true_r.
  destruct (field "user_id" d) as [v|].
  - rewrite Value_eqb_eq. split; congruence.
  - split; discriminate.
Qed.

Lemma matches_stored (k : nat) (v r t w : string) :
  matches [("user_id", VStr w)] (("_id", VObjectId k) :: message_document v r t) = String.eqb v w.
Proof. cbn. apply andb_true_r. Qed.

Lemma project_out_stored (k : nat) (v r t : string) :
  project_out ["_id"] (("_id", VObjectId k) :: message_document v r t) =
  message_document v r t.
Proof. reflexivity. Qed.

Lemma history_eq (u : string) (c : Collection) :
  history u c = map (project_out ["_id"]) (filter (matches [("user_id", VStr u)]) (documents c)).
Proof. reflexivity. Qed.

Lemma get_chat_history_history (u : string) (c : Collection) :
  get_chat_history None u c = Body {| history_user_id := u; messages := history u c |}.
Proof. reflexivity. Qed.

Lemma matches_two_users (u v : string) (d : Document) :
  v <> u -> matches [("user_id", VStr v)] d = true -> matches [("user_id", VStr u)] d = false.
Proof.
  intros Hvu Hv. destruct (matches [("user_id", VStr u)] d) eqn:Hu; trivial.
  apply matches_by_user in Hv, Hu. congruence.
Qed.

Lemma filter_other_user (u v : string) (l : list Document) :
  v <> u ->
  filter (matches [("user_id", VStr v)]) (filter (fun d => negb (matches [("user_id", VStr u)] d)) l) =
  filter (matches [("user_id", VStr v)]) l.
Proof.
  intros Hvu. induction l as [|d l IH]; cbn [filter]; trivial.
  destruct (matches [("user_id", VStr v)] d) eqn:Hv.
  - rewrite (matches_two_users d Hvu Hv). cbn [negb filter]. rewrite Hv, IH. reflexivity.
  - destruct (negb (matches [("user_id", VStr u)] d)); cbn [filter]; rewrite ?Hv; exact IH.
Qed.

Lemma filter_after_delete (q : Document) (l : list Document) :
  filter (matches q) (filter (fun d => negb (matches q d)) l) = [].
Proof.
  induction l as [|d l IH]; cbn [filter]; trivial.
  destruct (matches q d) eqn:E; cbn [negb filter]; rewrite ?E; exact IH.
Qed.

Lemma filter_none_matches (q : Document) (l : list Document) :
  filter (matches q) l = [] -> filter (fun d => negb (matches q d)) l = l.
Proof.
  induction l as [|d l IH]; cbn [filter]; trivial.
  destruct (matches q d); cbn [negb]; [discriminate|].
  intros H. rewrite (IH H). reflexivity.
Qed.

Lemma chat_body_inv (kickoff_async : Crew -> outcome CrewOutput)
    (store_fault : option (nat * string)) (request : ChatRequest)
    (c c' : Collection) (body : ChatResponse) :
  chat kickoff_async store_fault request c = (Body body, c') ->
  kickoff_async (crew request) = Returns {| raw := response body |} /\
  store_fault = None /\
  c' = {| documents := documents c ++
            [("_id", VObjectId (next_oid c)) ::
               message_document (user_id request) "user" (message request);
             ("_id", VObjectId (S (next_oid c))) ::
               message_document (user_id request) "bot" (response body)];
          next_oid := next_oid c + 2 |}.
Proof.
  unfold chat. destruct (kickoff_async (crew request)) as [[text]|e]; [|discriminate].
  destruct store_fault as [[written e]|]; cbn; [discriminate|].
  intros H. injection H as <- <-. repeat split.
Qed.

(** C2. When [chat] answers with a response, the collection has grown by
    exactly two documents, appended at its end: the user message with the
    text as sent, then the bot message with the response. The sender's
    history is the old one followed by these two; every other history is
    as before. *)
Theorem C2_successful_exchange_appends_pair
    (kickoff_async : Crew -> outcome CrewOutput) (store_fault : option (nat * string))
    (request : ChatRequest) (c c' : Collection) (body : ChatResponse) :
  chat kickoff_async store_fault request c = (Body body, c') ->
  kickoff_async (crew request) = Returns {| raw := response body |} /\
  documents c' = documents c ++
    [[("_id", VObjectId (next_oid c)); ("user_id", VStr (user_id request));
      ("role", VStr "user"); ("text", VStr (message request))];
     [("_id", VObjectId (S (next_oid c))); ("user_id", VStr (user_id request));
      ("role", VStr "bot"); ("text", VStr (response body))]] /\
  history (user_id request) c' = history (user_id request) c ++
    [[("user_id", VStr (user_id request)); ("role", VStr "user");
      ("text", VStr (message request))];
     [("user_id", VStr (user_id request)); ("role", VStr "bot");
      ("text", VStr (response body))]] /\
  length (history (user_id request) c') = length (history (user_id request) c) + 2 /\
  (forall v, v <> user_id request -> history v c' = history v c).
Proof.
  intros H. apply chat_body_inv in H. destruct H as (Hk & _ & ->).
  assert (Hh : history (user_id request)
                 {| documents := documents c ++
                      [("_id", VObjectId (next_oid c)) ::
                         message_document (user_id request) "user" (message request);
                       ("_id", VObjectId (S (next_oid c))) ::
                         message_document (user_id request) "bot" (response body)];
                    next_oid := next_oid c + 2 |} =
               history (user_id request) c ++
                 [message_document (user_id request) "user" (message request);
                  message_document (user_id request) "bot" (response body)]).
  { rewrite !history_eq. cbn [documents]. rewrite filter_app, map_app. f_equal.
    cbn [filter]. rewrite !matches_stored, !String.eqb_refl.
    reflexivity. }
  repeat split; trivial.
  - rewrite Hh, length_app. reflexivity.
  - intros v Hv. rewrite !history_eq. cbn [documents]. rewrite filter_app, map_app.
    cbn [filter]. rewrite !matches_stored.
    apply not_eq_sym, String.eqb_neq in Hv. rewrite Hv. cbn. apply app_nil_r.
Qed.

(** C3. When the reasoning backend raises, [chat] raises
    [HTTPException(500, str(e))] and the collection is the one it was
    called with, so every user's history is unchanged. *)
Theorem C3_dispatch_failure_persists_nothing
    (kickoff_async : Crew -> outcome CrewOutput) (store_fault : option (nat * string))
    (request : ChatRequest) (c : Collection) (str_e : string) :
  kickoff_async (crew request) = Raises str_e ->
  chat kickoff_async store_fault request c = (HTTPException 500 str_e, c) /\
  (forall u, history u (snd (chat kickoff_async store_fault request c)) = history u c).
Proof.
  intros H. unfold chat. rewrite H. split; reflexivity.
Qed.

(** C10. Whatever text the backend returns, the empty string included,
    [chat] stores it as the bot message and answers with it, provided the
    store takes the insertion. With a backend that returned, the only
    failure left is one raised by the store. *)
Theorem C10_backend_output_not_validated
    (kickoff_async : Crew -> outcome CrewOutput)
    (request : ChatRequest) (c : Collection) (text : string) :
  kickoff_async (crew request) = Returns {| raw := text |} ->
  chat kickoff_async None request c =
    (Body {| response := text |},
     {| documents := documents c ++
          [[("_id", VObjectId (next_oid c)); ("user_id", VStr (user_id request));
            ("role", VStr "user"); ("text", VStr (message request))];
           [("_id", VObjectId (S (next_oid c))); ("user_id", VStr (user_id request));
            ("role", VStr "bot"); ("text", VStr text)]];
        next_oid := next_oid c + 2 |}) /\
  (forall store_fault status detail c',
     chat kickoff_async store_fault request c = (HTTPException status detail, c') ->
     status = 500 /\ exists written, store_fault = Some (written, detail)).
Proof.
  intros H. unfold chat. rewrite H. split; [reflexivity|].
  intros [[written e]|] status detail c'; cbn; intros E; [|discriminate E].
  injection E as <- <- <-. split; [reflexivity | exists written; reflexivity].
Qed.

(** C6. With the store answering, [delete_chat_history] reports as
    [deleted_count] the number of messages in the user's history and leaves
    that history empty; on a user without messages it reports zero and
    changes nothing, so a second call after a first does so too. Other
    users' histories are untouched. *)
Theorem C6_clear_reports_count_and_empties (u : string) (c : Collection) :
  let c' := snd (delete_chat_history None u c) in
  fst (delete_chat_history None u c) =
    Body {| delete_message := "Chat history deleted successfully.";
            delete_deleted_count := length (history u c) |} /\
  get_chat_history None u c' = Body {| history_user_id := u; messages := [] |} /\
  delete_chat_history None u c' =
    (Body {| delete_message := "Chat history deleted successfully.";
             delete_deleted_count := 0 |}, c') /\
  (history u c = [] ->
   delete_chat_history None u c =
     (Body {| delete_message := "Chat history deleted successfully.";
              delete_deleted_count := 0 |}, c)) /\
  (forall v, v <> u -> history v c' = history v c).
Proof.
  assert (Hempty : forall k : Collection, history u k = [] ->
            delete_chat_history None u k =
              (Body {| delete_message := "Chat history deleted successfully.";
                       delete_deleted_count := 0 |}, k)).
  { intros k Hk. rewrite history_eq in Hk. apply map_eq_nil in Hk.
    unfold delete_chat_history, delete_many. cbn [deleted_count].
    rewrite (filter_none_matches _ _ Hk), Hk. destruct k; reflexivity. }
  assert (Hafter : history u (snd (delete_chat_history None u c)) = []).
  { rewrite history_eq. cbn [delete_chat_history delete_many snd documents].
    rewrite filter_after_delete. reflexivity. }
  cbv zeta. repeat split.
  - cbn [delete_chat_history delete_many fst deleted_count].
    rewrite history_eq, length_map. reflexivity.
  - rewrite get_chat_history_history, Hafter. reflexivity.
  - apply Hempty, Hafter.
  - apply Hempty.
  - intros v Hv. rewrite !history_eq. cbn [delete_chat_history delete_many snd documents].
    rewrite (filter_other_user _ Hv). reflexivity.
Qed.

(** ** What the collection holds *)






(** C7, as the code has it. With the store answering, [get_chat_history]
    returns [{user_id, messages}] where [messages] are the user's documents
    in the order of the collection, each without its [_id]. On a collection
    written by [chat], each message has exactly the fields [user_id], [role]
    and [text], and its [user_id] is the one asked for. A user without
    documents gets the empty list. *)
Theorem C7_history_in_order_with_user_id (u : string) (c : Collection) :
  get_chat_history None u c =
    Body {| history_user_id := u;
            messages := map (project_out ["_id"])
                          (filter (matches [("user_id", VStr u)]) (documents c)) |} /\
  (written_by_chat c ->
   Forall (fun m => keys m = ["user_id"; "role"; "text"] /\
                    field "user_id" m = Some (VStr u) /\
                    (field "role" m = Some (VStr "user") \/
                     field "role" m = Some (VStr "bot")))
          (history u c)) /\
  ((forall d, In d (documents c) -> field "user_id" d <> Some (VStr u)) ->
   get_chat_history None u c = Body {| history_user_id := u; messages := [] |}).
Proof.
  split; [reflexivity|split].
  - unfold written_by_chat. rewrite history_eq. intros H.
    apply Forall_map, Forall_forall. intros d Hd.
    apply filter_In in Hd. destruct Hd as [Hd Hm].
    rewrite Forall_forall in H. destruct (H d Hd) as (n & v & r & t & Hr & ->).
    rewrite matches_stored in Hm. apply String.eqb_eq in Hm. subst v.
    rewrite project_out_stored. cbn.
    repeat split. destruct Hr as [-> | ->]; auto.
  - intros H. rewrite get_chat_history_history, history_eq.
    replace (filter (matches [("user_id", VStr u)]) (documents c)) with (@nil Document);
      [reflexivity|].
    symmetry. induction (documents c) as [|d l IH]; cbn [filter]; trivial.
    destruct (matches [("user_id", VStr u)] d) eqn:E.
    + apply matches_by_user in E. exfalso. apply (H d); [left; reflexivity | exact E].
    + apply IH. intros d' Hd'. apply H. right. exact Hd'.
Qed.

(** * Further properties of the endpoints *)

(** ** Helper facts on the collection *)

Lemma field_project_out (k : string) (excluded : list string) (d : Document) :
  field k (project_out excluded d) =
  if existsb (String.eqb k) excluded then None else field k d.
Proof.
  induction d as [|[k' v] d IH]; cbn [project_out filter field fst].
  - destruct (existsb (String.eqb k) excluded); reflexivity.
  - fold (project_out excluded d).
    destruct (String.eqb_spec k k') as [<-|Hk].
    + destruct (existsb (String.eqb k) excluded) eqn:E; cbn [negb field].
      * rewrite IH, ?E. reflexivity.
      * rewrite String.eqb_refl. reflexivity.
    + destruct (existsb (String.eqb k') excluded); cbn [negb field].
      * exact IH.
      * apply String.eqb_neq in Hk. rewrite Hk. exact IH.
Qed.

Lemma keys_project_out (k : string) (excluded : list string) (d : Document) :
  In k (keys (project_out excluded d)) -> existsb (String.eqb k) excluded = false.
Proof.
  unfold keys, project_out. rewrite in_map_iff. intros ([k' v] & <- & H).
  apply filter_In in H. destruct H as [_ H]. cbn [fst] in *.
  apply negb_true_iff, H.
Qed.

Lemma filter_lengths (A : Type) (f : A -> bool) (l : list A) :
  length (filter f l) + length (filter (fun x => negb (f x)) l) = length l.
Proof.
  induction l as [|x l IH]; cbn [filter]; trivial.
  destruct (f x); cbn [negb length]; lia.
Qed.

(** The part of a batch of [chat] that user [v] sees, when the store wrote
    its first [written] documents. *)
Lemma history_of_batch (v u text bot_response : string) (n written : nat) :
  map (project_out ["_id"])
    (filter (matches [("user_id", VStr v)])
       (firstn written
          (with_ids n [message_document u "user" text;
                       message_document u "bot" bot_response]))) =
  if String.eqb u v
  then firstn written [message_document u "user" text;
                       message_document u "bot" bot_response]
  else [].
Proof.
  destruct written as [|[|written]]; cbn [with_ids firstn filter];
    rewrite ?firstn_nil, ?matches_stored; destruct (String.eqb u v);
    cbn [filter map]; rewrite ?project_out_stored; reflexivity.
Qed.

Lemma history_app (v : string) (c : Collection) (l : list Document) (n : nat) :
  history v {| documents := documents c ++ l; next_oid := n |} =
  history v c ++ map (project_out ["_id"]) (filter (matches [("user_id", VStr v)]) l).
Proof.
  rewrite !history_eq. cbn [documents]. rewrite filter_app, map_app. reflexivity.
Qed.

(** What [chat] does to a history, whatever the backend and the store do:
    it appends the first [written] documents of the pair to the sender's
    history, and [written] is 1 only when the store stopped there. *)
Lemma chat_history (kickoff_async : Crew -> outcome CrewOutput)
    (store_fault : option (nat * string)) (request : ChatRequest)
    (c : Collection) (v : string) :
  exists written bot_response,
    history v (snd (chat kickoff_async store_fault request c)) =
      history v c ++
      (if String.eqb (user_id request) v
       then firstn written [message_document (user_id request) "user" (message request);
                            message_document (user_id request) "bot" bot_response]
       else []) /\
    (written = 1 -> exists str_e, store_fault = Some (1, str_e)).
Proof.
  unfold chat. destruct (kickoff_async (crew request)) as [[text]|e].
  - destruct store_fault as [[written e]|]; cbn [insert_many snd raw].
    + exists written, text. rewrite history_app, history_of_batch. split; trivial.
      intros ->. exists e. reflexivity.
    + exists 2, text. rewrite history_app.
      rewrite <- (history_of_batch v (user_id request) (message request) text
                    (next_oid c) 2).
      split; [reflexivity | discriminate].
  - exists 0, "". cbn [snd firstn].
    destruct (String.eqb (user_id request) v); rewrite app_nil_r;
      (split; [reflexivity | discriminate]).
Qed.

Lemma filter_keeps_all (A : Type) (f : A -> bool) (l : list A) :
  (forall x, f x = true) -> filter f l = l.
Proof.
  intros H. induction l as [|x l IH]; cbn [filter]; trivial.
  rewrite H, IH. reflexivity.
Qed.

(** A deletion that did not stop halfway leaves each history as it was or
    empties it. *)
Lemma delete_history (store_fault : option ((Document -> bool) * string))
    (u v : string) (c : Collection) :
  whole_batch (DeleteChatHistory store_fault u) ->
  history v (snd (delete_chat_history store_fault u c)) = history v c \/
  (v = u /\ history v (snd (delete_chat_history store_fault u c)) = []).
Proof.
  assert (Hall : history v
                   {| documents := filter (fun d => negb (matches [("user_id", VStr u)] d))
                                     (documents c);
                      next_oid := next_oid c |} = history v c \/
                 (v = u /\
                  history v
                    {| documents := filter (fun d => negb (matches [("user_id", VStr u)] d))
                                      (documents c);
                       next_oid := next_oid c |} = [])).
  { destruct (String.eqb_spec v u) as [->|Hvu].
    - right. rewrite history_eq. cbn [documents]. rewrite filter_after_delete. auto.
    - left. rewrite !history_eq. cbn [documents]. rewrite (filter_other_user _ Hvu).
      reflexivity. }
  unfold delete_chat_history, delete_many.
  destruct store_fault as [[gone e]|]; cbn [snd whole_batch]; [|intros _; exact Hall].
  intros [Hg|Hg].
  - left. rewrite !history_eq. cbn [documents].
    rewrite (filter_keeps_all (fun d => negb (matches [("user_id", VStr u)] d && gone d)))
      by (intros d; rewrite Hg, andb_false_r; reflexivity).
    reflexivity.
  - rewrite (filter_ext (fun d => negb (matches [("user_id", VStr u)] d && gone d))
               (fun d => negb (matches [("user_id", VStr u)] d))); [exact Hall|].
    intros d. rewrite Hg, andb_true_r. reflexivity.
Qed.




Lemma exchanges_length (u : string) (h : list Document) :
  exchanges u h -> exists n, length h = 2 * n.
Proof.
  induction 1 as [|h text bot_response _ [n IH]].
  - exists 0. reflexivity.
  - exists (S n). rewrite length_app, IH. cbn [length]. lia.
Qed.

Lemma serve_keeps_exchanges (call : Call) (c : Collection) :
  whole_batch call ->
  (forall u, exchanges u (history u c)) ->
  forall u, exchanges u (history u (serve call c)).
Proof.
  intros Hw H u. destruct call as [k sf r|sf v|sf v]; cbn [serve]; trivial.
  - destruct (chat_history k sf r c u) as (written & text & -> & H1).
    destruct (String.eqb (user_id r) u) eqn:E.
    + apply String.eqb_eq in E. subst u.
      destruct written as [|[|written]]; cbn [firstn]; rewrite ?firstn_nil.
      * rewrite app_nil_r. apply H.
      * destruct (H1 eq_refl) as [e ->]. cbn [whole_batch] in Hw. congruence.
      * apply exchanges_snoc, H.
    + rewrite app_nil_r. apply H.
  - destruct (@delete_history sf v u c Hw) as [-> | (_ & ->)]; [apply H | constructor].
Qed.

(** ** Failures *)

(** When the backend returned a text and the store then raises during the
    insertion, [chat] raises [HTTPException(500, str(e))]: the text is not
    returned. The sender's history has grown by the documents the store
    wrote before the error; if it stopped after the first, that is the user
    message without its bot message. *)
Theorem chat_store_fault_is_reported
    (kickoff_async : Crew -> outcome CrewOutput) (request : ChatRequest)
    (c : Collection) (text : string) (written : nat) (str_e : string) :
  kickoff_async (crew request) = Returns {| raw := text |} ->
  fst (chat kickoff_async (Some (written, str_e)) request c) =
    HTTPException 500 str_e /\
  history (user_id request)
    (snd (chat kickoff_async (Some (written, str_e)) request c)) =
    history (user_id request) c ++
    firstn written
      [[("user_id", VStr (user_id request)); ("role", VStr "user");
        ("text", VStr (message request))];
       [("user_id", VStr (user_id request)); ("role", VStr "bot");
        ("text", VStr text)]] /\
  (written = 1 ->
   history (user_id request)
     (snd (chat kickoff_async (Some (written, str_e)) request c)) =
     history (user_id request) c ++
     [[("user_id", VStr (user_id request)); ("role", VStr "user");
       ("text", VStr (message request))]]).
Proof.
  intros H.
  assert (Hh : history (user_id request)
                 (snd (chat kickoff_async (Some (written, str_e)) request c)) =
               history (user_id request) c ++
               firstn written
                 [message_document (user_id request) "user" (message request);
                  message_document (user_id request) "bot" text]).
  { unfold chat. rewrite H. cbn [insert_many snd raw].
    rewrite history_app, history_of_batch, String.eqb_refl. reflexivity. }
  split; [|split].
  - unfold chat. rewrite H. reflexivity.
  - exact Hh.
  - intros ->. exact Hh.
Qed.

(** The three endpoints raise nothing but status 500, and the detail is
    the text of the exception of the call that failed: the backend or
    the store for [chat], the store for the other two. When the backend
    fails, [chat] does not reach the insertion: the collection is the one
    it was called with. *)
Theorem endpoints_raise_only_500 :
  (forall kickoff_async store_fault request c status detail c',
     chat kickoff_async store_fault request c = (HTTPException status detail, c') ->
     status = 500 /\
     ((kickoff_async (crew request) = Raises detail /\ c' = c) \/
      (exists text written,
         kickoff_async (crew request) = Returns {| raw := text |} /\
         store_fault = Some (written, detail)))) /\
  (forall store_fault u c status detail,
     get_chat_history store_fault u c = HTTPException status detail ->
     status = 500 /\ store_fault = Some detail) /\
  (forall store_fault u c status detail c',
     delete_chat_history store_fault u c = (HTTPException status detail, c') ->
     status = 500 /\ exists gone, store_fault = Some (gone, detail)).
Proof.
  split; [|split].
  - intros k sf r c status detail c'. unfold chat.
    destruct (k (crew r)) as [[text]|e].
    + destruct sf as [[written e]|]; cbn; intros E; [|discriminate E].
      injection E as <- <- <-. split; trivial. right. exists text, written. auto.
    + intros E. injection E as <- <- <-. auto.
  - intros sf u c status detail. unfold get_chat_history, find.
    destruct sf as [e|]; intros E; [|discriminate E].
    injection E as <- <-. auto.
  - intros sf u c status detail c'. unfold delete_chat_history, delete_many.
    destruct sf as [[gone e]|]; intros E; [|discriminate E].
    injection E as <- <- _. split; [reflexivity | exists gone; reflexivity].
Qed.

(** ** Users are kept apart *)

(** Whatever the backend and the store do during a [chat] of one user, the
    history of every other user is the same afterwards. *)
Theorem chat_touches_only_sender
    (kickoff_async : Crew -> outcome CrewOutput) (store_fault : option (nat * string))
    (request : ChatRequest) (c : Collection) (v : string) :
  v <> user_id request ->
  history v (snd (chat kickoff_async store_fault request c)) = history v c.
Proof.
  intros Hv.
  destruct (chat_history kickoff_async store_fault request c v) as (w & t & -> & _).
  apply not_eq_sym, String.eqb_neq in Hv. rewrite Hv. apply app_nil_r.
Qed.

(** On any collection of documents whose fields hold strings and
    ObjectIds, with whatever fields in whatever order (not only the
    documents that [chat] writes), no message returned by
    [get_chat_history] has an [_id] field, and each carries the [user_id]
    that was asked for. *)
Theorem history_never_exposes_id (u : string) (c : Collection) :
  Forall (fun m => field "_id" m = None /\
                   ~ In "_id" (keys m) /\
                   field "user_id" m = Some (VStr u))
         (history u c).
Proof.
  rewrite history_eq. apply Forall_map, Forall_forall. intros d Hd.
  apply filter_In in Hd. destruct Hd as [_ Hm]. apply matches_by_user in Hm.
  repeat split.
  - rewrite field_project_out. reflexivity.
  - intros H. apply keys_project_out in H. discriminate H.
  - rewrite field_project_out. exact Hm.
Qed.

(** ** Clearing *)

(** With the store answering, [delete_chat_history] removes exactly the
    documents of that user: a document is in the collection afterwards if
    and only if it was there and its [user_id] is another one; the reported
    count and the documents left add up to the documents before, and the
    supply of ObjectIds is not reset. *)
Theorem clear_removes_exactly_the_users_documents (u : string) (c : Collection) :
  let c' := snd (delete_chat_history None u c) in
  (forall d, In d (documents c') <->
             In d (documents c) /\ field "user_id" d <> Some (VStr u)) /\
  (exists n,
     fst (delete_chat_history None u c) =
       Body {| delete_message := "Chat history deleted successfully.";
               delete_deleted_count := n |} /\
     n + length (documents c') = length (documents c)) /\
  next_oid c' = next_oid c.
Proof.
  cbv zeta. cbn [delete_chat_history delete_many snd fst documents next_oid deleted_count].
  split; [|split].
  - intros d. rewrite filter_In, negb_true_iff.
    rewrite <- matches_by_user.
    destruct (matches [("user_id", VStr u)] d); split; intros [Hd E]; split;
      trivial; congruence.
  - eexists. split; [reflexivity|]. apply filter_lengths.
  - reflexivity.
Qed.

(** A successful [chat] followed by a clearing of the same user: the count
    reported is the length of the history before the chat plus two, and
    the history is empty afterwards. *)
Theorem chat_then_clear
    (kickoff_async : Crew -> outcome CrewOutput) (store_fault : option (nat * string))
    (request : ChatRequest) (c c1 : Collection) (body : ChatResponse) :
  chat kickoff_async store_fault request c = (Body body, c1) ->
  fst (delete_chat_history None (user_id request) c1) =
    Body {| delete_message := "Chat history deleted successfully.";
            delete_deleted_count := length (history (user_id request) c) + 2 |} /\
  history (user_id request) (snd (delete_chat_history None (user_id request) c1)) = [].
Proof.
  intros H. apply chat_body_inv in H. destruct H as (_ & _ & ->). split.
  - cbn [delete_chat_history delete_many fst deleted_count]. do 2 f_equal.
    cbn [documents]. rewrite filter_app, length_app. cbn [filter].
    rewrite !matches_stored, String.eqb_refl, history_eq, length_map. reflexivity.
  - rewrite history_eq. cbn [delete_chat_history delete_many snd documents].
    rewrite filter_after_delete. reflexivity.
Qed.

(** ** Invariants over runs of calls *)


(** As long as the store never stops halfway (no insertion fails after
    the first of the two documents, no deletion fails with a part of the
    documents gone), every history stays a sequence of whole exchanges, a
    user message followed by its bot message; its length is even. Backend
    failures, failed reads, insertions that fail before or after both
    writes, and clearings do not break this. *)
Theorem histories_are_whole_exchanges (calls : list Call) (c : Collection) (u : string) :
  Forall whole_batch calls ->
  (forall v, exchanges v (history v c)) ->
  exchanges u (history u (serve_all calls c)) /\
  exists n, length (history u (serve_all calls c)) = 2 * n.
Proof.
  intros Hw H.
  assert (E : forall v, exchanges v (history v (serve_all calls c))).
  { unfold serve_all. revert c H. induction Hw as [|call calls Hc _ IH]; intros c H; cbn.
    - exact H.
    - apply IH, serve_keeps_exchanges; assumption. }
  split; [apply E | apply (exchanges_length (E u))].
Qed.

(** ** More on the keyword chain *)

Lemma append_assoc_str (a b c : string) : ((a ++ b) ++ c = a ++ b ++ c)%string.
Proof. induction a as [|x a IH]; cbn; [reflexivity | rewrite IH; reflexivity]. Qed.

Lemma substring_of_trans (a b c : string) :
  substring_of a b -> substring_of b c -> substring_of a c.
Proof.
  intros (p1 & q1 & ->) (p2 & q2 & ->).
  exists (p2 ++ p1)%string, (q1 ++ q2)%string.
  rewrite !append_assoc_str. reflexivity.
Qed.

Lemma category_matches_inside (i : Intent) (pre text post : string) :
  category_matches i text -> category_matches i (pre ++ text ++ post)%string.
Proof.
  intros (kw & Hin & H). exists kw. split; trivial.
  apply (substring_of_trans H). exists pre, post. reflexivity.
Qed.

Lemma classify_at_most (i : Intent) (text : string) :
  category_matches i text -> exists j, classify text = Some j /\ rank j <= rank i.
Proof.
  intros Hi. destruct (classify text) as [j|] eqn:E.
  - exists j. split; trivial. destruct (proj1 (classify_Some _ _) E) as [_ E'].
    destruct (le_lt_dec (rank j) (rank i)) as [Hle|Hlt]; trivial.
    exfalso. apply (E' i Hlt Hi).
  - exfalso. apply (proj1 (classify_None _) E i Hi).
Qed.

(** Routing reads the lower-cased text only: two messages with the same
    lower-cased text, such as two spellings that differ in case, get the
    same agent, the same expected output and the same instruction
    template, each with its own message in it. *)
Theorem routing_reads_lowered_text (r1 r2 : ChatRequest) :
  lower (message r1) = lower (message r2) ->
  agent (current_task r1) = agent (current_task r2) /\
  expected_output (current_task r1) = expected_output (current_task r2) /\
  exists instruction,
    description (current_task r1) = (instruction ++ message r1)%string /\
    description (current_task r2) = (instruction ++ message r2)%string.
Proof.
  intros H. rewrite !current_task_classify, H. repeat split.
  exists (template (classify (lower (message r2)))). split; reflexivity.
Qed.

(** The keyword "study plan" of the first branch never decides anything:
    a text that contains it contains "plan", so the condition of the branch
    is the one with "schedule" and "plan" alone. *)
Theorem study_plan_keyword_is_redundant (user_input : string) :
  (str_in "study plan" user_input = true -> str_in "plan" user_input = true) /\
  any_keyword_in ["schedule"; "plan"; "study plan"] user_input =
  any_keyword_in ["schedule"; "plan"] user_input.
Proof.
  assert (H : str_in "study plan" user_input = true -> str_in "plan" user_input = true).
  { rewrite !str_in_true_iff. apply substring_of_trans.
    exists "study ", "". reflexivity. }
  split; [exact H|].
  unfold any_keyword_in. cbn [existsb].
  destruct (str_in "schedule" user_input); cbn [orb]; trivial.
  destruct (str_in "plan" user_input); cbn [orb]; trivial.
  destruct (str_in "study plan" user_input); cbn [orb]; trivial.
  discriminate (H eq_refl).
Qed.

(** Keywords are found anywhere in the text, inside words too. When the
    lower-cased text of one message occurs inside the lower-cased text of
    another, the other is routed to a category that comes no later in the
    chain than the category of the first, and never to the fallback. *)
Theorem longer_text_keeps_or_raises_priority (r r' : ChatRequest) (i : Intent) :
  substring_of (lower (message r)) (lower (message r')) ->
  current_task r = work_item (Some i) (message r) ->
  exists j,
    rank j <= rank i /\
    current_task r' = work_item (Some j) (message r').
Proof.
  intros Hsub Hr. rewrite current_task_classify in Hr.
  apply (f_equal expected_output) in Hr. cbn [expected_output work_item] in Hr.
  apply expected_descriptor_inj in Hr.
  destruct (proj1 (classify_Some _ _) Hr) as [(kw & Hin & Hkw) _].
  assert (Hi : category_matches i (lower (message r')))
    by (exists kw; split; [exact Hin | exact (substring_of_trans Hkw Hsub)]).
  destruct (classify_at_most Hi) as (j & Hj & Hle).
  exists j. split; trivial.
  rewrite current_task_classify, Hj. reflexivity.
Qed.

(** ** Reading back what was written *)

Lemma answered_chat_history (text : string) (request : ChatRequest)
    (c : Collection) (v : string) :
  history v (snd (chat (answers text) None request c)) =
  history v c ++
  (if String.eqb (user_id request) v
   then [message_document (user_id request) "user" (message request);
         message_document (user_id request) "bot" text]
   else []).
Proof.
  unfold chat, answers. cbn [insert_many snd raw]. rewrite history_app. f_equal.
  exact (history_of_batch v (user_id request) (message request) text (next_oid c) 2).
Qed.

(** A run of exchanges of any users, each answered by the backend and
    stored, is read back per user in the order it was sent: the history of
    [u] is the old one followed by the user and bot messages of the
    requests of [u], the requests of other users left out. *)
Theorem history_replays_exchanges_in_order
    (sent : list (ChatRequest * string)) (c : Collection) (u : string) :
  history u
    (serve_all (map (fun rt => PostChat (answers (snd rt)) None (fst rt)) sent) c) =
  history u c ++
  flat_map (fun rt =>
              if String.eqb (user_id (fst rt)) u
              then [[("user_id", VStr u); ("role", VStr "user");
                     ("text", VStr (message (fst rt)))];
                    [("user_id", VStr u); ("role", VStr "bot");
                     ("text", VStr (snd rt))]]
              else []) sent.
Proof.
  unfold serve_all. revert c.
  induction sent as [|[request text] sent IH]; intros c; cbn [map fold_left flat_map].
  - symmetry. apply app_nil_r.
  - rewrite IH. cbn [serve fst snd]. rewrite answered_chat_history, <- app_assoc.
    destruct (String.eqb_spec (user_id request) u) as [->|_]; reflexivity.
Qed.

End Backend.

(** * Concrete runs

    The runs below use [lower_ascii] on ASCII messages and an arbitrary
    key. [one_exchange] is what [chat] leaves in an empty collection. *)

Lemma one_exchange_by_chat :
  snd (chat lower_ascii "k" (answers "Photosynthesis turns light into sugar.") None
         {| user_id := "u2"; message := "Explain photosynthesis" |} empty_collection) =
  one_exchange.
Proof. reflexivity. Qed.

(** "plan my deadline" holds a study/plan keyword and an
    assignment/deadline keyword, and is routed to the study/plan outcome. *)
Lemma C1_plan_my_deadline :
  category_matches StudyPlan "plan my deadline" /\
  category_matches AssignmentDeadline "plan my deadline" /\
  chat_route lower_ascii "k" {| user_id := "u1"; message := "plan my deadline" |} =
    (chatbot_agent "k",
     "Create a study schedule based on this request: plan my deadline",
     "A well-structured study plan.").
Proof.
  assert (Hs : category_matches StudyPlan "plan my deadline").
  { exists "plan". split; [cbn; auto | exists "", " my deadline"; reflexivity]. }
  assert (Hd : category_matches AssignmentDeadline "plan my deadline").
  { exists "deadline". split; [cbn; auto | exists "plan my ", ""; reflexivity]. }
  split; [exact Hs | split; [exact Hd|]].
  apply (@C1_first_matching_category_wins lower_ascii "k"
           {| user_id := "u1"; message := "plan my deadline" |} StudyPlan).
  - exact Hs.
  - intros j Hj. cbn in Hj. lia.
Defined.

(** The empty message is routed to the fallback outcome. *)
Lemma C4_empty_message :
  chat_route lower_ascii "k" {| user_id := "u1"; message := "" |} =
    (chatbot_agent "k", "Respond to this student query: ", "A helpful response.").
Proof.
  apply (@C4_unmatched_message_gets_fallback lower_ascii "k"
           {| user_id := "u1"; message := "" |}).
  intros i. apply any_keyword_in_false_iff. destruct i; reflexivity.
Defined.

(** Two users sending the same text get the same task. *)
Lemma C9_two_users_same_text :
  current_task lower_ascii "k" {| user_id := "u1"; message := "Explain recursion" |} =
  current_task lower_ascii "k" {| user_id := "u2"; message := "Explain recursion" |}.
Proof.
  apply (@C9_routing_ignores_user lower_ascii "k"
           {| user_id := "u1"; message := "Explain recursion" |}
           {| user_id := "u2"; message := "Explain recursion" |}).
  reflexivity.
Defined.

(** The end-to-end run of the specification: after "I feel stressed about
    exams" from [u1], the history of [u1] ends with the user message and
    the bot message. *)
Lemma C2_stressed_about_exams :
  history "u1"
    (snd (chat lower_ascii "k" (answers "Take a short break.") None
            {| user_id := "u1"; message := "I feel stressed about exams" |}
            one_exchange)) =
  history "u1" one_exchange ++
    [[("user_id", VStr "u1"); ("role", VStr "user");
      ("text", VStr "I feel stressed about exams")];
     [("user_id", VStr "u1"); ("role", VStr "bot");
      ("text", VStr "Take a short break.")]].
Proof.
  apply (@C2_successful_exchange_appends_pair lower_ascii "k"
           (answers "Take a short break.") None
           {| user_id := "u1"; message := "I feel stressed about exams" |}
           one_exchange
           (snd (chat lower_ascii "k" (answers "Take a short break.") None
                   {| user_id := "u1"; message := "I feel stressed about exams" |}
                   one_exchange))
           {| response := "Take a short break." |}).
  reflexivity.
Defined.

(** A failing backend leaves the collection as it was. *)
Lemma C3_backend_down :
  chat lower_ascii "k" (fails "backend down") None
    {| user_id := "u1"; message := "plan my week" |} one_exchange =
  (HTTPException 500 "backend down", one_exchange).
Proof.
  apply (@C3_dispatch_failure_persists_nothing lower_ascii "k" (fails "backend down") None
           {| user_id := "u1"; message := "plan my week" |} one_exchange
           "backend down").
  reflexivity.
Defined.

(** An empty answer of the backend is stored and returned like any other. *)
Lemma C10_empty_answer :
  chat lower_ascii "k" (answers "") None
    {| user_id := "u1"; message := "hello there" |} empty_collection =
  (Body {| response := "" |},
   {| documents :=
        [[("_id", VObjectId 0); ("user_id", VStr "u1"); ("role", VStr "user");
          ("text", VStr "hello there")];
         [("_id", VObjectId 1); ("user_id", VStr "u1"); ("role", VStr "bot");
          ("text", VStr "")]];
      next_oid := 2 |}).
Proof.
  apply (@C10_backend_output_not_validated lower_ascii "k" (answers "")
           {| user_id := "u1"; message := "hello there" |} empty_collection "").
  reflexivity.
Defined.

(** Clearing a user who has no messages reports zero and changes nothing. *)
Lemma C6_clear_unknown_user :
  delete_chat_history None "nobody" one_exchange =
  (Body {| delete_message := "Chat history deleted successfully.";
           delete_deleted_count := 0 |}, one_exchange).
Proof.
  apply (@C6_clear_reports_count_and_empties "nobody" one_exchange).
  reflexivity.
Defined.

(** The history of [u2] after the one exchange: two messages, each with the
    fields [user_id], [role] and [text]. *)
Lemma C7_history_of_u2 :
  Forall (fun m => keys m = ["user_id"; "role"; "text"] /\
                   field "user_id" m = Some (VStr "u2") /\
                   (field "role" m = Some (VStr "user") \/
                    field "role" m = Some (VStr "bot")))
         (history "u2" one_exchange).
Proof.
  apply (@C7_history_in_order_with_user_id "u2" one_exchange).
  apply Forall_cons; [|apply Forall_cons; [|apply Forall_nil]].
  - exists 0, "u2", "user", "Explain photosynthesis". split; [left|]; reflexivity.
  - exists 1, "u2", "bot", "Photosynthesis turns light into sugar.".
    split; [right|]; reflexivity.
Defined.

(** The message keeps its casing in the description; only the matching
    reads the lower-cased text. *)
Lemma C8_mixed_case_kept :
  description (current_task lower_ascii "k"
                 {| user_id := "u1"; message := "PLAN my Deadline" |}) =
  "Create a study schedule based on this request: PLAN my Deadline".
Proof.
  apply (@C8_task_embeds_message_verbatim lower_ascii "k"
           {| user_id := "u1"; message := "PLAN my Deadline" |}).
Defined.


(** C7, as stated, fails: the messages returned after one exchange carry
    the field [user_id] next to [role] and [text]. *)
Lemma C7_messages_carry_user_id :
  get_chat_history None "u2" one_exchange =
    Body {| history_user_id := "u2";
            messages :=
              [[("user_id", VStr "u2"); ("role", VStr "user");
                ("text", VStr "Explain photosynthesis")];
               [("user_id", VStr "u2"); ("role", VStr "bot");
                ("text", VStr "Photosynthesis turns light into sugar.")]] |} /\
  ~ (forall m, In m (history "u2" one_exchange) ->
     forall k, In k (keys m) <-> k = "role" \/ k = "text").
Proof.
  split; [reflexivity|].
  intros H.
  destruct (proj1 (H (message_document "u2" "user" "Explain photosynthesis")
                     (or_introl eq_refl) "user_id") (or_introl eq_refl))
    as [E|E]; discriminate E.
Qed.

(** * Further properties of the keyword table and of the start-up *)

(** No keyword is shadowed by an earlier category: each keyword of the
    chain, sent alone as the message, is routed to its own category, so
    each of the five categories, and each of the five routed agents, can be
    reached. *)
Theorem every_keyword_reaches_its_category (key user : string) (i : Intent) (keyword : string) :
  In keyword (keywords i) ->
  current_task lower_ascii key {| user_id := user; message := keyword |} =
    work_item key (Some i) keyword /\
  agent (current_task lower_ascii key {| user_id := user; message := keyword |}) =
    handler key (Some i).
Proof.
  intros H.
  assert (E : classify (lower_ascii keyword) = Some i).
  { destruct i; cbn [keywords In] in H;
      repeat (destruct H as [<-|H]; [reflexivity|]); destruct H. }
  rewrite current_task_classify. cbn [message]. rewrite E. split; reflexivity.
Qed.

(** The import, up to the creation of the store client, gets through
    exactly when [GEMINI_API_KEY] is set to a non-empty string and
    [MongoClient(MONGO_URI)] does not raise. With the key unset or empty it
    stops with the [ValueError], whatever [MongoClient] would do with the
    URI; with a key, an exception of [MongoClient] is the one that stops
    it. Past these lines, every agent's LLM carries that non-empty key. *)
Theorem load_settings_needs_a_key (getenv : string -> option string)
    (MongoClient : option string -> outcome unit) :
  (forall s, load_settings getenv MongoClient = Returns s <->
     exists key, getenv "GEMINI_API_KEY" = Some key /\ key <> "" /\
                 MongoClient (getenv "MONGODB_URI") = Returns tt /\
                 s = {| settings_api_key := key;
                        settings_MONGO_URI := getenv "MONGODB_URI" |}) /\
  (getenv "GEMINI_API_KEY" = None \/ getenv "GEMINI_API_KEY" = Some "" ->
   load_settings getenv MongoClient =
     Raises "Error: GEMINI_API_KEY is missing from the .env file.") /\
  (forall key str_e,
     getenv "GEMINI_API_KEY" = Some key -> key <> "" ->
     MongoClient (getenv "MONGODB_URI") = Raises str_e ->
     load_settings getenv MongoClient = Raises str_e) /\
  (forall s a, load_settings getenv MongoClient = Returns s ->
     In a (defined_agents (settings_api_key s)) ->
     llm_api_key (agent_llm a) = settings_api_key s /\
     llm_api_key (agent_llm a) <> "").
Proof.
  unfold load_settings.
  destruct (getenv "GEMINI_API_KEY") as [[|x key]|];
    [| destruct (MongoClient (getenv "MONGODB_URI")) as [[]|e] |];
    (split; [|split; [|split]]).
  - intros s. split; [discriminate|]. intros (key & E & Hk & _).
    injection E as <-. congruence.
  - reflexivity.
  - intros key e E Hk. injection E as <-. congruence.
  - discriminate.
  - intros s. split.
    + intros E. injection E as <-. exists (String x key). repeat split. discriminate.
    + intros (key' & E & _ & _ & ->). injection E as <-. reflexivity.
  - intros [E|E]; discriminate E.
  - intros key' e' _ _ E. discriminate E.
  - intros s a E Ha. injection E as <-. cbn [settings_api_key] in *.
    assert (Hk : llm_api_key (agent_llm a) = String x key)
      by (cbn [defined_agents In] in Ha;
          repeat (destruct Ha as [<-|Ha]; [reflexivity|]); destruct Ha).
    split; [exact Hk | rewrite Hk; discriminate].
  - intros s. split; [discriminate|]. intros (key' & _ & _ & E & _). discriminate E.
  - intros [E|E]; discriminate E.
  - intros key' e' _ _ E. congruence.
  - discriminate.
  - intros s. split; [discriminate|]. intros (key & E & _). discriminate E.
  - reflexivity.
  - intros key e E. discriminate E.
  - discriminate.
Qed.

(** * Concrete runs of the further properties *)

(** The store stops after the first document: the user message of [u1] is
    in the history without a bot message, and the caller gets a 500. *)
Lemma store_stops_after_user_message :
  history "u1"
    (snd (chat lower_ascii "k" (answers "Take a short break.")
            (Some (1, "connection reset"))
            {| user_id := "u1"; message := "I feel stressed about exams" |}
            one_exchange)) =
  history "u1" one_exchange ++
    [[("user_id", VStr "u1"); ("role", VStr "user");
      ("text", VStr "I feel stressed about exams")]].
Proof.
  apply (@chat_store_fault_is_reported lower_ascii "k" (answers "Take a short break.")
           {| user_id := "u1"; message := "I feel stressed about exams" |}
           one_exchange "Take a short break." 1 "connection reset").
  - reflexivity.
  - reflexivity.
Defined.

(** A store that is down when the history is read: the endpoint raises
    500 with the store's message. *)
Lemma history_store_down :
  get_chat_history (Some "store down") "u2" one_exchange =
    HTTPException 500 "store down" /\
  (500 = 500 /\ Some "store down" = Some "store down").
Proof.
  split; [reflexivity|].
  apply (proj1 (proj2 (endpoints_raise_only_500 lower_ascii "k"))
           (Some "store down") "u2" one_exchange 500 "store down").
  reflexivity.
Defined.

Lemma chat_of_u1_leaves_u2 :
  history "u2"
    (snd (chat lower_ascii "k" (answers "Take a short break.") (Some (1, "connection reset"))
            {| user_id := "u1"; message := "I feel stressed about exams" |}
            one_exchange)) =
  history "u2" one_exchange.
Proof.
  apply (@chat_touches_only_sender lower_ascii "k" (answers "Take a short break.")
           (Some (1, "connection reset"))
           {| user_id := "u1"; message := "I feel stressed about exams" |}
           one_exchange "u2").
  discriminate.
Defined.

Lemma chat_then_clear_of_u2 :
  fst (delete_chat_history None "u2"
         (snd (chat lower_ascii "k" (answers "Start with chapter one.") None
                 {| user_id := "u2"; message := "plan my week" |} one_exchange))) =
  Body {| delete_message := "Chat history deleted successfully.";
          delete_deleted_count := 4 |}.
Proof.
  apply (@chat_then_clear lower_ascii "k" (answers "Start with chapter one.") None
           {| user_id := "u2"; message := "plan my week" |} one_exchange
           (snd (chat lower_ascii "k" (answers "Start with chapter one.") None
                   {| user_id := "u2"; message := "plan my week" |} one_exchange))
           {| response := "Start with chapter one." |}).
  reflexivity.
Defined.

(** A run with a backend failure, a store failure before any write, a
    successful exchange, a reading and a clearing of another user. *)
Lemma run_keeps_whole_exchanges :
  exchanges "u1"
    (history "u1"
       (serve_all lower_ascii "k"
          [PostChat (fails "backend down") None
             {| user_id := "u1"; message := "plan my week" |};
           PostChat (answers "Hello!") (Some (0, "store down"))
             {| user_id := "u1"; message := "hello there" |};
           PostChat (answers "Take a short break.") None
             {| user_id := "u1"; message := "I feel stressed about exams" |};
           GetChatHistory None "u1";
           DeleteChatHistory None "u2"]
          one_exchange)).
Proof.
  apply (@histories_are_whole_exchanges lower_ascii "k"
           [PostChat (fails "backend down") None
              {| user_id := "u1"; message := "plan my week" |};
            PostChat (answers "Hello!") (Some (0, "store down"))
              {| user_id := "u1"; message := "hello there" |};
            PostChat (answers "Take a short break.") None
              {| user_id := "u1"; message := "I feel stressed about exams" |};
            GetChatHistory None "u1";
            DeleteChatHistory None "u2"]
           one_exchange "u1").
  - repeat (apply Forall_cons; [cbn; try exact I; discriminate|]). apply Forall_nil.
  - intros v. destruct (String.eqb_spec "u2" v) as [<-|Hv].
    + apply (exchanges_snoc (u := "u2") (h := []) "Explain photosynthesis"
               "Photosynthesis turns light into sugar." (exchanges_nil "u2")).
    + rewrite history_eq.
      change (documents one_exchange) with
        [("_id", VObjectId 0) :: message_document "u2" "user" "Explain photosynthesis";
         ("_id", VObjectId 1) ::
           message_document "u2" "bot" "Photosynthesis turns light into sugar."].
      cbn [filter]. rewrite !matches_stored. apply String.eqb_neq in Hv. rewrite Hv.
      apply exchanges_nil.
Defined.

Lemma upper_case_plan_routed_alike :
  agent (current_task lower_ascii "k" {| user_id := "u1"; message := "PLAN MY WEEK" |}) =
  agent (current_task lower_ascii "k" {| user_id := "u2"; message := "plan my week" |}).
Proof.
  apply (@routing_reads_lowered_text lower_ascii "k"
           {| user_id := "u1"; message := "PLAN MY WEEK" |}
           {| user_id := "u2"; message := "plan my week" |}).
  reflexivity.
Defined.

Lemma study_plan_implies_plan :
  str_in "plan" "my study plan for may" = true.
Proof.
  apply (proj1 (study_plan_keyword_is_redundant "my study plan for may")).
  reflexivity.
Defined.

(** "explain" is a concept keyword, but "explanation" holds "plan": the
    request is routed to the study/plan category. *)
Lemma explanation_holds_plan :
  exists j,
    rank j <= rank StudyPlan /\
    current_task lower_ascii "k"
      {| user_id := "u1"; message := "Give me an explanation of recursion" |} =
    work_item "k" (Some j) "Give me an explanation of recursion".
Proof.
  apply (@longer_text_keeps_or_raises_priority lower_ascii "k"
           {| user_id := "u2"; message := "Plan" |}
           {| user_id := "u1"; message := "Give me an explanation of recursion" |}
           StudyPlan).
  - exists "give me an ex", "ation of recursion". reflexivity.
  - reflexivity.
Defined.

(** A key, no URI, and a client constructor that rejects one malformed
    URI: the import gets through. *)
Lemma loads_with_a_key :
  load_settings (fun var => if String.eqb var "GEMINI_API_KEY" then Some "k" else None)
    (fun uri => match uri with
                | Some "not a uri" => Raises "Invalid URI scheme"
                | _ => Returns tt
                end) =
  Returns {| settings_api_key := "k"; settings_MONGO_URI := None |}.
Proof.
  apply (proj1 (load_settings_needs_a_key
                  (fun var => if String.eqb var "GEMINI_API_KEY" then Some "k" else None)
                  (fun uri => match uri with
                              | Some "not a uri" => Raises "Invalid URI scheme"
                              | _ => Returns tt
                              end))).
  exists "k". repeat split. discriminate.
Defined.

Lemma understand_reaches_the_teacher :
  agent (current_task lower_ascii "k" {| user_id := "u1"; message := "understand" |}) =
  teacher_agent "k".
Proof.
  apply (@every_keyword_reaches_its_category "k" "u1" ConceptExplain "understand").
  cbn. do 4 right. left. reflexivity.
Defined.
